(** * STL weight calculator: the geometry engine and the weight converter

    A shallow embedding of the computational core of [app.py]:
    [calculate_stl_volume], [calculate_weight], [get_mesh_statistics], the
    data that [create_comparison_chart] plots, the weight table and the quick
    calculator of [main], and the three constant material tables.

    Modelling conventions.
    - The functions are written first over the real numbers ([R] of the
      Standard Library): that is the arithmetic which the floating-point
      code approximates, without rounding, infinities or NaN.
    - The volume and the weight are written a second time, in the module
      [IEEE], over the binary32 and binary64 numbers that the program
      computes with; what depends on rounding or on non-finite numbers is
      stated and proved there.
    - A Python [dict] is an association list in insertion order, since the
      program iterates over its tables and the order is observable.
    - A raised Python exception is the [Raise] case of [result]. *)

From Stdlib Require Import Reals Lra List String Permutation Bool Arith Lia.
From Stdlib Require Import ZArith SpecFloat.
Import ListNotations.

Open Scope R_scope.

(** ** NumPy vectors of length three *)

Record vec3 : Type := V3 { vx : R; vy : R; vz : R }.

(** [np.cross(b, c)] on two vectors of length three. *)
Definition np_cross (b c : vec3) : vec3 :=
  V3 (vy b * vz c - vz b * vy c)
     (vz b * vx c - vx b * vz c)
     (vx b * vy c - vy b * vx c).

(** [np.dot(a, b)] on two vectors of length three. *)
Definition np_dot (a b : vec3) : R :=
  vx a * vx b + vy a * vy b + vz a * vz b.

Definition vadd (a b : vec3) : vec3 :=
  V3 (vx a + vx b) (vy a + vy b) (vz a + vz b).

Definition vsub (a b : vec3) : vec3 :=
  V3 (vx a - vx b) (vy a - vy b) (vz a - vz b).

(** ** The mesh

    [stl_mesh.vectors] is an array of shape (n, 3, 3): one row of three
    vertices per facet, in file order. *)

Definition Triangle : Type := (vec3 * vec3 * vec3)%type.

Record Mesh : Type := { vectors : list Triangle }.

(** The term that the loop of [calculate_stl_volume] adds for one triangle:
    [np.dot(A, np.cross(B, C))]. *)
Definition triple_product (triangle : Triangle) : R :=
  let '(A, B, C) := triangle in np_dot A (np_cross B C).

(** [calculate_stl_volume]: the accumulator starts at [0.0], the loop adds
    one term per triangle, the result is [abs(volume) / 6.0]. *)
Definition calculate_stl_volume (stl_mesh : Mesh) : R :=
  let volume :=
    fold_left (fun volume triangle => volume + triple_product triangle)
              (vectors stl_mesh) 0 in
  Rabs volume / 6.

(** The signed-tetrahedron sum in the words of the specification: the sum,
    over all triangles, of [A . (B x C)]. *)
Fixpoint signed_tetrahedron_sum (triangles : list Triangle) : R :=
  match triangles with
  | [] => 0
  | (A, B, C) :: rest => np_dot A (np_cross B C) + signed_tetrahedron_sum rest
  end.


(** ** Exceptions and dictionaries *)

(** The two Python exceptions that the modelled code can raise: a missing
    dictionary key, and NumPy's error for the minimum or maximum of an array
    without elements. *)
Inductive exn : Type :=
| KeyError (key : string)
| ValueError.

Inductive result (A : Type) : Type :=
| Ok (value : A)
| Raise (e : exn).

Arguments Ok {A} value.
Arguments Raise {A} e.

Definition bind {A B : Type} (r : result A) (k : A -> result B) : result B :=
  match r with
  | Ok a => k a
  | Raise e => Raise e
  end.

Notation "x <- r ;; k" := (bind r (fun x => k))
  (at level 61, r at next level, right associativity).

(** A list comprehension whose element expression may raise: the first
    exception stops the iteration. *)
Fixpoint comprehension {A B : Type} (f : A -> result B) (l : list A)
  : result (list B) :=
  match l with
  | [] => Ok []
  | a :: rest =>
      b <- f a ;;
      bs <- comprehension f rest ;;
      Ok (b :: bs)
  end.

Definition raises {A : Type} (r : result A) : Prop :=
  exists e, r = Raise e.

(** A dictionary with string keys, in insertion order. *)
Definition dict (V : Type) : Type := list (string * V).

Definition keys {V : Type} (d : dict V) : list string := map fst d.

Definition items {V : Type} (d : dict V) : list (string * V) := d.

Fixpoint lookup {V : Type} (d : dict V) (key : string) : option V :=
  match d with
  | [] => None
  | (k, v) :: rest => if String.eqb k key then Some v else lookup rest key
  end.

(** The subscript [d[key]]: the value, or [KeyError]. *)
Definition getitem {V : Type} (d : dict V) (key : string) : result V :=
  match lookup d key with
  | Some v => Ok v
  | None => Raise (KeyError key)
  end.

(** ** Material properties *)

Open Scope string_scope.

Definition MATERIAL_DENSITIES : dict R :=
  [ ("14K Gold", 0.0131);
    ("18K Gold", 0.0154);
    ("22K Gold", 0.0174);
    ("24K Gold", 0.0193);
    ("Silver (925)", 0.0104);
    ("Platinum (950)", 0.0214);
    ("Platinum (900)", 0.0204);
    ("Palladium", 0.0120);
    ("White Gold (18K)", 0.0147);
    ("Rose Gold (18K)", 0.0150) ].

Definition MATERIAL_COLORS : dict string :=
  [ ("14K Gold", "#DAA520");
    ("18K Gold", "#FFD700");
    ("22K Gold", "#FFA500");
    ("24K Gold", "#FFD700");
    ("Silver (925)", "#C0C0C0");
    ("Platinum (950)", "#E5E4E2");
    ("Platinum (900)", "#E5E4E2");
    ("Palladium", "#CED0DD");
    ("White Gold (18K)", "#F5F5F5");
    ("Rose Gold (18K)", "#B76E79") ].

Definition MATERIAL_INFO : dict string :=
  [ ("14K Gold", "58.3% pure - Common for everyday jewelry");
    ("18K Gold", "75.0% pure - Premium jewelry standard");
    ("22K Gold", "91.7% pure - High-end, investment grade");
    ("24K Gold", "99.9% pure - Pure gold, very soft");
    ("Silver (925)", "92.5% pure - Sterling silver standard");
    ("Platinum (950)", "95.0% pure - Luxury jewelry material");
    ("Platinum (900)", "90.0% pure - Alternative platinum alloy");
    ("Palladium", "95.0% pure - Lighter platinum alternative");
    ("White Gold (18K)", "75.0% pure - Gold with white metals");
    ("Rose Gold (18K)", "75.0% pure - Gold with copper") ].

Close Scope string_scope.

(** ** Weight from volume and material

    The functions read the module-level tables.  They are written once over
    arbitrary tables, and then instantiated with the three constants. *)

(** One row of the detailed table of [main].  The source formats the
    numbers with four decimals for display; the row keeps the numbers. *)
Record WeightRow : Type := {
  row_material : string;
  row_density : R;
  row_weight_g : R;
  row_troy_oz : R;
  row_pennyweight : R;
  row_info : string
}.

(** The data of the bar chart that [create_comparison_chart] builds: the
    categories [x], the heights [y], the bar colours and the [customdata]
    shown when hovering. *)
Record ComparisonBars : Type := {
  bar_x : list string;
  bar_y : list R;
  bar_colors : list string;
  bar_customdata : list R
}.

(** The three metrics of the quick calculator of [main]. *)
Record CalculatorResult : Type := {
  calc_weight : R;
  calc_troy : R;
  calc_dwt : R
}.

Section Registry.

Variable densities : dict R.
Variable colors : dict string.
Variable info : dict string.

(** [calculate_weight]: [volume_mm3 * MATERIAL_DENSITIES[material_name]]. *)
Definition calculate_weight_in (volume_mm3 : R) (material_name : string)
  : result R :=
  density <- getitem densities material_name ;;
  Ok (volume_mm3 * density).

(** The body of the loop over [MATERIAL_DENSITIES.items()] in [main]. *)
Definition weight_row_in (volume : R) (item : string * R)
  : result WeightRow :=
  let '(material, density) := item in
  weight_g <- calculate_weight_in volume material ;;
  let troy_oz := weight_g / 31.1035 in
  let dwt := weight_g / 1.55517 in
  material_info <- getitem info material ;;
  Ok {| row_material := material;
        row_density := density;
        row_weight_g := weight_g;
        row_troy_oz := troy_oz;
        row_pennyweight := dwt;
        row_info := material_info |}.

(** [weight_data] after the loop. *)
Definition weight_data_in (volume : R) : result (list WeightRow) :=
  comprehension (weight_row_in volume) (items densities).

Definition create_comparison_chart_in (volume : R) : result ComparisonBars :=
  let materials := keys densities in
  weights <- comprehension (calculate_weight_in volume) materials ;;
  bar_colours <- comprehension (getitem colors) materials ;;
  Ok {| bar_x := materials;
        bar_y := weights;
        bar_colors := bar_colours;
        bar_customdata := map (fun w => w / 31.1035) weights |}.

(** The quick calculator: [calc_weight], [calc_troy] and [calc_dwt]. *)
Definition quick_calculator_in (calc_volume : R) (calc_material : string)
  : result CalculatorResult :=
  weight <- calculate_weight_in calc_volume calc_material ;;
  Ok {| calc_weight := weight;
        calc_troy := weight / 31.1035;
        calc_dwt := weight / 1.55517 |}.

End Registry.

Definition calculate_weight : R -> string -> result R :=
  calculate_weight_in MATERIAL_DENSITIES.

Definition weight_data : R -> result (list WeightRow) :=
  weight_data_in MATERIAL_DENSITIES MATERIAL_INFO.

Definition create_comparison_chart : R -> result ComparisonBars :=
  create_comparison_chart_in MATERIAL_DENSITIES MATERIAL_COLORS.

Definition quick_calculator : R -> string -> result CalculatorResult :=
  quick_calculator_in MATERIAL_DENSITIES.

(** ** Mesh statistics *)

(** Modelled from the spec: the [areas] attribute of the mesh object, which
    the external STL library computes and the program only sums.  For each
    triangle, [0.5 * |(B - A) x (C - A)|]. *)
Definition triangle_area (triangle : Triangle) : R :=
  let '(A, B, C) := triangle in
  let n := np_cross (vsub B A) (vsub C A) in
  0.5 * sqrt (np_dot n n).

(** [stl_mesh.areas]: one area per triangle, in the order of [vectors]. *)
Definition areas (stl_mesh : Mesh) : list R :=
  map triangle_area (vectors stl_mesh).

(** [a.sum()] of an array of numbers. *)
Definition np_sum (a : list R) : R := fold_left Rplus a 0.

(** [stl_mesh.vectors.reshape(-1, 3)]: the vertices, three per triangle. *)
Definition reshape_points (triangles : list Triangle) : list vec3 :=
  flat_map (fun triangle : Triangle =>
              let '(A, B, C) := triangle in [A; B; C]) triangles.

Definition vmin (a b : vec3) : vec3 :=
  V3 (Rmin (vx a) (vx b)) (Rmin (vy a) (vy b)) (Rmin (vz a) (vz b)).

Definition vmax (a b : vec3) : vec3 :=
  V3 (Rmax (vx a) (vx b)) (Rmax (vy a) (vy b)) (Rmax (vz a) (vz b)).

(** [points.min(axis=0)] and [points.max(axis=0)]: NumPy raises
    [ValueError] when there is no point. *)
Definition np_min_axis0 (points : list vec3) : result vec3 :=
  match points with
  | [] => Raise ValueError
  | p :: rest => Ok (fold_left vmin rest p)
  end.

Definition np_max_axis0 (points : list vec3) : result vec3 :=
  match points with
  | [] => Raise ValueError
  | p :: rest => Ok (fold_left vmax rest p)
  end.

(** [points.mean(axis=0)]: the sum of the points divided by their number. *)
Definition np_mean_axis0 (points : list vec3) : vec3 :=
  let total := fold_left vadd points (V3 0 0 0) in
  let n := INR (List.length points) in
  V3 (vx total / n) (vy total / n) (vz total / n).

Record MeshStatistics : Type := {
  num_triangles : nat;
  min_coords : vec3;
  max_coords : vec3;
  dimensions : vec3;
  surface_area : R;
  center : vec3
}.

(** [get_mesh_statistics]: the entries of the returned dictionary are
    evaluated in the order in which they are written. *)
Definition get_mesh_statistics (stl_mesh : Mesh) : result MeshStatistics :=
  let all_points := reshape_points (vectors stl_mesh) in
  let n := List.length (vectors stl_mesh) in
  lo <- np_min_axis0 all_points ;;
  hi <- np_max_axis0 all_points ;;
  hi' <- np_max_axis0 all_points ;;
  lo' <- np_min_axis0 all_points ;;
  Ok {| num_triangles := n;
        min_coords := lo;
        max_coords := hi;
        dimensions := vsub hi' lo';
        surface_area := np_sum (areas stl_mesh);
        center := np_mean_axis0 all_points |}.


(** ** Meshes as oriented surfaces *)

(** Moving every vertex of a mesh by the vector [t]. *)
Definition translate_triangle (t : vec3) (triangle : Triangle) : Triangle :=
  let '(A, B, C) := triangle in (vadd A t, vadd B t, vadd C t).

Definition translate (t : vec3) (stl_mesh : Mesh) : Mesh :=
  {| vectors := map (translate_triangle t) (vectors stl_mesh) |}.

(** Reversing the winding of every triangle: the vertices [A, B, C] are
    stored as [C, B, A]. *)
Definition reverse_triangle (triangle : Triangle) : Triangle :=
  let '(A, B, C) := triangle in (C, B, A).

Definition reverse_winding (stl_mesh : Mesh) : Mesh :=
  {| vectors := map reverse_triangle (vectors stl_mesh) |}.

(** The directed edges of a triangle follow its winding. *)
Definition edge : Type := (vec3 * vec3)%type.

Definition triangle_edges (triangle : Triangle) : list edge :=
  let '(A, B, C) := triangle in [(A, B); (B, C); (C, A)].

Definition directed_edges (triangles : list Triangle) : list edge :=
  flat_map triangle_edges triangles.

Definition reverse_edge (e : edge) : edge := (snd e, fst e).

(** A mesh is closed and consistently wound when every directed edge is
    matched by its opposite: listing the edges of all triangles and listing
    them reversed gives the same edges, up to order.  On a watertight
    surface each edge lies on two triangles that run through it in opposite
    directions. *)
Definition closed_consistent (stl_mesh : Mesh) : Prop :=
  Permutation (directed_edges (vectors stl_mesh))
              (map reverse_edge (directed_edges (vectors stl_mesh))).

(** ** The unit cube

    Eight corners at plus or minus [0.5] on each axis; corner number
    [x + 2 y + 4 z] has the positive coordinate on the axes whose bit is 1.
    Twelve triangles, two per face, wound so that the normals point out. *)
Definition cube_corner (i : nat) : vec3 :=
  match i with
  | 0%nat => V3 (-0.5) (-0.5) (-0.5)
  | 1%nat => V3 0.5 (-0.5) (-0.5)
  | 2%nat => V3 (-0.5) 0.5 (-0.5)
  | 3%nat => V3 0.5 0.5 (-0.5)
  | 4%nat => V3 (-0.5) (-0.5) 0.5
  | 5%nat => V3 0.5 (-0.5) 0.5
  | 6%nat => V3 (-0.5) 0.5 0.5
  | _ => V3 0.5 0.5 0.5
  end.

Definition cube_faces : list (nat * nat * nat) :=
  [ (0, 2, 3); (0, 3, 1);      (* z = -0.5 *)
    (4, 5, 7); (4, 7, 6);      (* z = +0.5 *)
    (0, 1, 5); (0, 5, 4);      (* y = -0.5 *)
    (2, 6, 7); (2, 7, 3);      (* y = +0.5 *)
    (0, 4, 6); (0, 6, 2);      (* x = -0.5 *)
    (1, 3, 7); (1, 7, 5) ]%nat. (* x = +0.5 *)

Definition realise (position : nat -> vec3) (face : nat * nat * nat)
  : Triangle :=
  let '(i, j, k) := face in (position i, position j, position k).

Definition unit_cube : Mesh :=
  {| vectors := map (realise cube_corner) cube_faces |}.

Definition moved_cube : Mesh :=
  translate (V3 1000 1000 1000) unit_cube.

(** Index edges of a face list, and a check that two lists of index edges
    agree up to order. *)
Definition face_edges (face : nat * nat * nat) : list (nat * nat) :=
  let '(i, j, k) := face in [(i, j); (j, k); (k, i)].

Definition index_edge_eqb (e f : nat * nat) : bool :=
  Nat.eqb (fst e) (fst f) && Nat.eqb (snd e) (snd f).

Fixpoint remove_first (e : nat * nat) (l : list (nat * nat))
  : option (list (nat * nat)) :=
  match l with
  | [] => None
  | f :: rest =>
      if index_edge_eqb e f then Some rest
      else match remove_first e rest with
           | Some rest' => Some (f :: rest')
           | None => None
           end
  end.

Fixpoint same_edges (l1 l2 : list (nat * nat)) : bool :=
  match l1 with
  | [] => match l2 with [] => true | _ => false end
  | e :: rest =>
      match remove_first e l2 with
      | Some l2' => same_edges rest l2'
      | None => false
      end
  end.

(** The sum of a list of numbers, and what a directed edge [(u, v)]
    contributes to the change of the signed sum when the mesh is moved by
    [t]: [t . (u x v)]. *)
Definition total (l : list R) : R := fold_right Rplus 0 l.

Definition edge_flux (t : vec3) (e : edge) : R :=
  np_dot t (np_cross (fst e) (snd e)).

Definition realise_edge (position : nat -> vec3) (e : nat * nat) : edge :=
  (position (fst e), position (snd e)).

Definition swap_index_edge (e : nat * nat) : nat * nat := (snd e, fst e).

(** An open mesh: one triangle. *)
Definition lone_triangle : Mesh :=
  {| vectors := [ (V3 1 0 0, V3 0 1 0, V3 0 0 1) ] |}.

(** ** The 3D viewer *)

(** [np.arange(start, stop, step)] on natural numbers with a positive
    step: [start], [start + step], ... as long as the value is below
    [stop].  At most [stop - start] values exist, which bounds the
    recursion. *)
Fixpoint arange_from (fuel start stop step : nat) : list nat :=
  match fuel with
  | O => []
  | S fuel' =>
      if Nat.ltb start stop
      then start :: arange_from fuel' (start + step) stop step
      else []
  end.

Definition np_arange (start stop step : nat) : list nat :=
  arange_from (stop - start) start stop step.

(** [d.get(key, default)]: the value, or the default for a missing key. *)
Definition dict_get {V : Type} (d : dict V) (key : string) (default : V) : V :=
  match lookup d key with
  | Some v => v
  | None => default
  end.

(** The colour of the mesh in [create_3d_viewer]:
    [MATERIAL_COLORS.get(selected_material, '#FFD700') if selected_material
     else '#FFD700'].  [None] and the empty string are false in a
    condition. *)
Definition viewer_color (selected_material : option string) : string :=
  match selected_material with
  | None => "#FFD700"%string
  | Some name =>
      if String.eqb name EmptyString then "#FFD700"%string
      else dict_get MATERIAL_COLORS name "#FFD700"%string
  end.

(** What [create_3d_viewer] hands to the [Mesh3d] trace: the three
    coordinate columns of the vertex array, the three index arrays that
    select the corners of each triangle, the colour, and the title of the
    figure. *)
Record Mesh3d : Type := {
  mesh_x : list R;
  mesh_y : list R;
  mesh_z : list R;
  mesh_i : list nat;
  mesh_j : list nat;
  mesh_k : list nat;
  mesh_color : string;
  mesh_title : string
}.

(** [create_3d_viewer]: the statistics are taken first, then the mesh
    data are prepared; the styling of the figure is left out. *)
Definition create_3d_viewer (stl_mesh : Mesh) (volume : R)
           (filename : string) (selected_material : option string)
  : result (Mesh3d * MeshStatistics) :=
  stats <- get_mesh_statistics stl_mesh ;;
  let vertices := reshape_points (vectors stl_mesh) in
  let n_tri := List.length (vectors stl_mesh) in
  let i := np_arange 0 (n_tri * 3) 3 in
  let j := np_arange 1 (n_tri * 3) 3 in
  let k := np_arange 2 (n_tri * 3) 3 in
  let mesh_colour := viewer_color selected_material in
  Ok ({| mesh_x := map vx vertices;
         mesh_y := map vy vertices;
         mesh_z := map vz vertices;
         mesh_i := i;
         mesh_j := j;
         mesh_k := k;
         mesh_color := mesh_colour;
         mesh_title := ("<b>" ++ filename ++ "</b>")%string |},
      stats).

(** The vertex that the trace has at an index of its coordinate columns. *)
Definition trace_vertex (trace : Mesh3d) (index : nat) : option vec3 :=
  match nth_error (mesh_x trace) index,
        nth_error (mesh_y trace) index,
        nth_error (mesh_z trace) index with
  | Some x, Some y, Some z => Some (V3 x y z)
  | _, _, _ => None
  end.

(** ** The material selectors of [main] *)

(** [l.index(x)]: the first position of [x], or [ValueError]. *)
Fixpoint list_index (l : list string) (x : string) : result nat :=
  match l with
  | [] => Raise ValueError
  | y :: rest =>
      if String.eqb y x then Ok O
      else position <- list_index rest x ;; Ok (S position)
  end.

(** The options of both material selectors:
    [list(MATERIAL_DENSITIES.keys())]. *)
Definition material_options : list string := keys MATERIAL_DENSITIES.

(** The position that the calculator's selector starts at:
    [list(MATERIAL_DENSITIES.keys()).index(selected_material)]. *)
Definition calculator_index (selected_material : string) : result nat :=
  list_index material_options selected_material.

(** ** More operations on meshes *)

(** The order on points, coordinate by coordinate. *)
Definition vle (a b : vec3) : Prop :=
  vx a <= vx b /\ vy a <= vy b /\ vz a <= vz b.

(** Reversing the winding of every triangle by exchanging its second and
    third vertex: [A, B, C] is stored as [A, C, B]. *)
Definition swap_triangle (triangle : Triangle) : Triangle :=
  let '(A, B, C) := triangle in (A, C, B).

Definition swap_winding (stl_mesh : Mesh) : Mesh :=
  {| vectors := map swap_triangle (vectors stl_mesh) |}.

(** ** The same functions in floating-point arithmetic

    The definitions above compute with real numbers.  The program computes
    with IEEE 754 numbers: the vertices of [stl_mesh.vectors] are binary32
    numbers, and so are the products, differences and sums of [np.cross],
    [np.dot] and of the accumulator of [calculate_stl_volume]; a Python
    [float], such as the densities of the table and the volume typed into
    the calculator, is a binary64 number.  The module [IEEE] repeats the
    two functions with the operations of the Standard Library's
    specification of IEEE 754 arithmetic (rounding to nearest, ties to
    even), in which infinities and NaN exist and every operation rounds. *)
Module IEEE.

#[local] Open Scope Z_scope.

Definition float : Type := spec_float.

(** binary32: 24 bits of precision, exponents below 128.  [b32 m e] is the
    binary32 number nearest to [m * 2^e]. *)
Definition b32 (m e : Z) : float := binary_normalize 24 128 m e false.
Definition add32 : float -> float -> float := SFadd 24 128.
Definition sub32 : float -> float -> float := SFsub 24 128.
Definition mul32 : float -> float -> float := SFmul 24 128.
Definition div32 : float -> float -> float := SFdiv 24 128.

(** binary64: 53 bits of precision, exponents below 1024. *)
Definition b64 (m e : Z) : float := binary_normalize 53 1024 m e false.
Definition mul64 : float -> float -> float := SFmul 53 1024.
Definition div64 : float -> float -> float := SFdiv 53 1024.

(** The value of a decimal literal of the source text with the digits [n]
    over the power of ten [d], such as [0.0154] = 154 / 10000: the binary64
    number nearest to the quotient. *)
Definition literal (n d : Z) : float := div64 (b64 n 0) (b64 d 0).

Record vec3 : Type := V3 { vx : float; vy : float; vz : float }.

(** [np.cross(b, c)]: each entry is the rounded difference of two rounded
    products. *)
Definition np_cross (b c : vec3) : vec3 :=
  V3 (sub32 (mul32 (vy b) (vz c)) (mul32 (vz b) (vy c)))
     (sub32 (mul32 (vz b) (vx c)) (mul32 (vx b) (vz c)))
     (sub32 (mul32 (vx b) (vy c)) (mul32 (vy b) (vx c))).

(** [np.dot(a, b)]: the three rounded products, added from left to right. *)
Definition np_dot (a b : vec3) : float :=
  add32 (add32 (mul32 (vx a) (vx b)) (mul32 (vy a) (vy b)))
        (mul32 (vz a) (vz b)).

Definition Triangle : Type := (vec3 * vec3 * vec3)%type.

Record Mesh : Type := { vectors : list Triangle }.

Definition triple_product (triangle : Triangle) : float :=
  let '(A, B, C) := triangle in np_dot A (np_cross B C).

(** [calculate_stl_volume]: the accumulator starts at [0.0], every
    addition rounds, and the result is [abs(volume) / 6.0]. *)
Definition calculate_stl_volume (stl_mesh : Mesh) : float :=
  let volume :=
    fold_left (fun volume triangle => add32 volume (triple_product triangle))
              (vectors stl_mesh) (S754_zero false) in
  div32 (SFabs volume) (b32 6 0).

(** The density table with the values that its literals have as Python
    floats, and [calculate_weight] on Python floats. *)
Definition density_literals : dict (Z * Z) :=
  [ ("14K Gold"%string, (131, 10000));
    ("18K Gold"%string, (154, 10000));
    ("22K Gold"%string, (174, 10000));
    ("24K Gold"%string, (193, 10000));
    ("Silver (925)"%string, (104, 10000));
    ("Platinum (950)"%string, (214, 10000));
    ("Platinum (900)"%string, (204, 10000));
    ("Palladium"%string, (120, 10000));
    ("White Gold (18K)"%string, (147, 10000));
    ("Rose Gold (18K)"%string, (150, 10000)) ].

Definition MATERIAL_DENSITIES : dict float :=
  map (fun entry : string * (Z * Z) =>
         (fst entry, literal (fst (snd entry)) (snd (snd entry))))
      density_literals.

Definition calculate_weight (volume_mm3 : float) (material_name : string)
  : result float :=
  density <- getitem MATERIAL_DENSITIES material_name ;;
  Ok (mul64 volume_mm3 density).

(** Meshes: moved by a vector (the sums are rounded), with the winding
    reversed as [C, B, A], and with the winding reversed as [A, C, B]. *)
Definition vadd (a b : vec3) : vec3 :=
  V3 (add32 (vx a) (vx b)) (add32 (vy a) (vy b)) (add32 (vz a) (vz b)).

Definition translate_triangle (t : vec3) (triangle : Triangle) : Triangle :=
  let '(A, B, C) := triangle in (vadd A t, vadd B t, vadd C t).

Definition translate (t : vec3) (stl_mesh : Mesh) : Mesh :=
  {| vectors := map (translate_triangle t) (vectors stl_mesh) |}.

Definition reverse_triangle (triangle : Triangle) : Triangle :=
  let '(A, B, C) := triangle in (C, B, A).

Definition reverse_winding (stl_mesh : Mesh) : Mesh :=
  {| vectors := map reverse_triangle (vectors stl_mesh) |}.

Definition swap_triangle (triangle : Triangle) : Triangle :=
  let '(A, B, C) := triangle in (A, C, B).

Definition swap_winding (stl_mesh : Mesh) : Mesh :=
  {| vectors := map swap_triangle (vectors stl_mesh) |}.

(** Closed and consistently wound, as for the meshes over the reals. *)
Definition edge : Type := (vec3 * vec3)%type.

Definition triangle_edges (triangle : Triangle) : list edge :=
  let '(A, B, C) := triangle in [(A, B); (B, C); (C, A)].

Definition directed_edges (triangles : list Triangle) : list edge :=
  flat_map triangle_edges triangles.

Definition reverse_edge (e : edge) : edge := (snd e, fst e).

Definition closed_consistent (stl_mesh : Mesh) : Prop :=
  Permutation (directed_edges (vectors stl_mesh))
              (map reverse_edge (directed_edges (vectors stl_mesh))).

(** The unit cube with the corners and the faces of [cube_corner] and
    [cube_faces]; plus and minus [0.5] are binary32 numbers. *)
Definition half : float := b32 1 (-1).

Definition cube_corner (i : nat) : vec3 :=
  match i with
  | 0%nat => V3 (SFopp half) (SFopp half) (SFopp half)
  | 1%nat => V3 half (SFopp half) (SFopp half)
  | 2%nat => V3 (SFopp half) half (SFopp half)
  | 3%nat => V3 half half (SFopp half)
  | 4%nat => V3 (SFopp half) (SFopp half) half
  | 5%nat => V3 half (SFopp half) half
  | 6%nat => V3 (SFopp half) half half
  | _ => V3 half half half
  end.

Definition realise (position : nat -> vec3) (face : nat * nat * nat)
  : Triangle :=
  let '(i, j, k) := face in (position i, position j, position k).

Definition realise_edge (position : nat -> vec3) (e : nat * nat) : edge :=
  (position (fst e), position (snd e)).

Definition unit_cube : Mesh :=
  {| vectors := map (realise cube_corner) cube_faces |}.

(** The cube moved to (1000, 1000, 1000) and to (2048, 2048, 2048). *)
Definition moved_cube : Mesh :=
  translate (V3 (b32 1000 0) (b32 1000 0) (b32 1000 0)) unit_cube.


(** Two numbers are the same up to the sign of zero when [unsigned_zero]
    maps them to the same number; [negates x' x] says that [x'] is [- x]
    up to the sign of zero. *)
Definition unsigned_zero (x : float) : float :=
  match x with
  | S754_zero _ => S754_zero false
  | _ => x
  end.


(** The sign of a number that is not NaN is not set. *)
Definition not_negative (x : float) : Prop :=
  match x with
  | S754_nan => True
  | S754_zero s | S754_infinity s | S754_finite s _ _ => s = false
  end.

End IEEE.

(** * Properties *)

(** ** Floating-point arithmetic

    Facts about the operations of the specification of IEEE 754
    arithmetic, for every precision: products commute, a difference is a
    sum with the opposite, and changing the sign of the operands changes
    the sign of the result, up to the sign of a zero. *)

Section FloatFacts.
Variables prec emax : Z.









Lemma unsigned_zero_opp (x : spec_float) :
  IEEE.unsigned_zero (SFopp (IEEE.unsigned_zero x))
  = IEEE.unsigned_zero (SFopp x).
Proof.
  destruct x as [[] | [] | | s m e]; reflexivity.
Qed.










Lemma div_abs_not_negative (x : spec_float) (m : positive) (e : Z) :
  IEEE.not_negative (SFdiv prec emax (SFabs x) (S754_finite false m e)).
Proof.
  destruct x as [s | s | | s mx ex]; simpl; try reflexivity.
  destruct (SFdiv_core_binary prec emax (Z.pos mx) ex (Z.pos m) e)
    as [[mz ez] lz].
  unfold binary_round_aux.
  destruct (shr_fexp prec emax mz ez lz) as [mrs' e'].
  destruct (shr_fexp prec emax _ e' loc_Exact) as [mrs'' e''].
  destruct (shr_m mrs''); simpl; try reflexivity.
  destruct (Z.leb e'' (Z.sub emax prec)); reflexivity.
Qed.

End FloatFacts.




(** ** Volume: the loop against the formula *)

Lemma volume_loop_acc (triangles : list Triangle) (acc : R) :
  fold_left (fun volume triangle => volume + triple_product triangle)
            triangles acc
  = acc + signed_tetrahedron_sum triangles.
Proof.
  revert acc.
  induction triangles as [| [[A B] C] rest IH]; intros acc; simpl.
  - lra.
  - rewrite IH. lra.
Qed.

Lemma calculate_stl_volume_signed_sum (stl_mesh : Mesh) :
  calculate_stl_volume stl_mesh
  = Rabs (signed_tetrahedron_sum (vectors stl_mesh)) / 6.
Proof.
  unfold calculate_stl_volume.
  rewrite volume_loop_acc.
  replace (0 + signed_tetrahedron_sum (vectors stl_mesh))
    with (signed_tetrahedron_sum (vectors stl_mesh)) by lra.
  reflexivity.
Qed.


(** ** Dictionaries *)

Section DictFacts.

Context {V : Type}.

Lemma lookup_not_in (d : dict V) (key : string) :
  ~ In key (keys d) -> lookup d key = None.
Proof.
  induction d as [| [k v] rest IH]; simpl; intros Hnot.
  - reflexivity.
  - destruct (String.eqb_spec k key) as [Heq | Hne].
    + exfalso. apply Hnot. left. exact Heq.
    + apply IH. intros Hin. apply Hnot. right. exact Hin.
Qed.

Lemma lookup_in_keys (d : dict V) (key : string) (v : V) :
  lookup d key = Some v -> In (key, v) d.
Proof.
  induction d as [| [k w] rest IH]; simpl; intros Hl.
  - discriminate.
  - destruct (String.eqb_spec k key) as [Heq | Hne].
    + left. congruence.
    + right. apply IH. exact Hl.
Qed.

Lemma lookup_in (d : dict V) (key : string) (v : V) :
  NoDup (keys d) -> In (key, v) d -> lookup d key = Some v.
Proof.
  induction d as [| [k w] rest IH]; simpl; intros Hnd Hin.
  - contradiction.
  - inversion Hnd as [| ? ? Hfresh Hrest]; subst.
    destruct Hin as [Hhead | Htail].
    + inversion Hhead; subst. rewrite String.eqb_refl. reflexivity.
    + destruct (String.eqb_spec k key) as [Heq | Hne].
      * exfalso. apply Hfresh. subst k.
        change key with (fst (key, v)). apply in_map. exact Htail.
      * apply IH; assumption.
Qed.

Lemma getitem_missing (d : dict V) (key : string) :
  ~ In key (keys d) -> getitem d key = Raise (KeyError key).
Proof.
  intros Hnot. unfold getitem. rewrite lookup_not_in by exact Hnot.
  reflexivity.
Qed.

Lemma getitem_present (d : dict V) (key : string) (v : V) :
  NoDup (keys d) -> In (key, v) d -> getitem d key = Ok v.
Proof.
  intros Hnd Hin. unfold getitem. rewrite (lookup_in d key v Hnd Hin).
  reflexivity.
Qed.

End DictFacts.

(** ** The material tables *)

Lemma MATERIAL_DENSITIES_NoDup : NoDup (keys MATERIAL_DENSITIES).
Proof.
  unfold keys, MATERIAL_DENSITIES; simpl.
  repeat (constructor;
          [ simpl; intro Hin;
            repeat (destruct Hin as [Hin | Hin]; [discriminate Hin |]);
            exact Hin | ]).
  constructor.
Qed.


Lemma calculate_weight_registered (v : R) (m : string) (d : R) :
  In (m, d) MATERIAL_DENSITIES -> calculate_weight v m = Ok (v * d).
Proof.
  intros Hin. unfold calculate_weight, calculate_weight_in.
  rewrite (getitem_present _ _ _ MATERIAL_DENSITIES_NoDup Hin).
  reflexivity.
Qed.

(** C2. For every non-negative volume [v] and every material [m] of the
    registry, [calculate_weight] returns exactly [v] times the registry
    density of [m]. *)
Theorem calculate_weight_exact (v : R) (m : string) (d : R) :
  0 <= v ->
  In (m, d) MATERIAL_DENSITIES ->
  calculate_weight v m = Ok (v * d).
Proof.
  intros _ Hin. apply calculate_weight_registered. exact Hin.
Qed.

Lemma calculate_weight_exact_witness :
  calculate_weight 100 "18K Gold" = Ok (100 * 0.0154).
Proof.
  apply (calculate_weight_exact 100 "18K Gold" 0.0154).
  - lra.
  - simpl. right. left. reflexivity.
Defined.

(** C3, as stated, fails: with the volume [-1.0] and the material
    "18K Gold" the function raises nothing and returns [-0.0154]. *)
Lemma calculate_weight_negative_returns :
  calculate_weight (-1) "18K Gold" = Ok (-0.0154)
  /\ ~ raises (calculate_weight (-1) "18K Gold").
Proof.
  assert (Hval : calculate_weight (-1) "18K Gold" = Ok (-0.0154)).
  { rewrite (calculate_weight_registered (-1) "18K Gold" 0.0154).
    - f_equal. lra.
    - simpl. right. left. reflexivity. }
  split.
  - exact Hval.
  - intros [e He]. rewrite Hval in He. discriminate He.
Qed.

(** The float density table is the table of the source: its literals
    have the values of [MATERIAL_DENSITIES], and its keys are the same. *)
Lemma density_literals_agree :
  map (fun entry : string * (Z * Z) =>
         (fst entry, IZR (fst (snd entry)) / IZR (snd (snd entry))))
      IEEE.density_literals
  = MATERIAL_DENSITIES.
Proof. reflexivity. Qed.

Lemma float_densities_keys :
  keys IEEE.MATERIAL_DENSITIES = keys MATERIAL_DENSITIES.
Proof. reflexivity. Qed.

Lemma float_densities_finite (m : string) (d : IEEE.float) :
  In (m, d) IEEE.MATERIAL_DENSITIES ->
  exists mantissa exponent, d = S754_finite false mantissa exponent.
Proof.
  intros Hin. vm_compute in Hin.
  repeat (destruct Hin as [Hin | Hin];
          [ inversion Hin; eexists; eexists; reflexivity | ]).
  contradiction.
Qed.

Lemma float_calculate_weight_registered (v : IEEE.float) (m : string)
      (d : IEEE.float) :
  In (m, d) IEEE.MATERIAL_DENSITIES ->
  IEEE.calculate_weight v m = Ok (IEEE.mul64 v d).
Proof.
  intros Hin. unfold IEEE.calculate_weight.
  rewrite (getitem_present IEEE.MATERIAL_DENSITIES m d).
  - reflexivity.
  - rewrite float_densities_keys. exact MATERIAL_DENSITIES_NoDup.
  - exact Hin.
Qed.

(** C3, amended.  [calculate_weight] does not check its volume and
    there is no InvalidVolume error: for every registered material and
    every volume, negative or non-finite ones included, it raises nothing
    and returns the product of the volume and the density.  Over the reals
    that is [v * d] for every negative [v]; on Python floats an infinite
    volume gives the infinity of the same sign and NaN gives NaN. *)
Theorem calculate_weight_unchecked_volume (m : string) :
  (forall (v d : R),
      v < 0 ->
      In (m, d) MATERIAL_DENSITIES ->
      calculate_weight v m = Ok (v * d)
      /\ ~ raises (calculate_weight v m))
  /\ (forall (v d : IEEE.float),
         In (m, d) IEEE.MATERIAL_DENSITIES ->
         IEEE.calculate_weight v m = Ok (IEEE.mul64 v d)
         /\ ~ raises (IEEE.calculate_weight v m)
         /\ (forall s : bool,
                v = S754_infinity s -> IEEE.mul64 v d = S754_infinity s)
         /\ (v = S754_nan -> IEEE.mul64 v d = S754_nan)).
Proof.
  split.
  - intros v d _ Hin.
    pose proof (calculate_weight_registered v m d Hin) as Hval.
    split; [exact Hval |].
    intros [e He]. rewrite Hval in He. discriminate He.
  - intros v d Hin.
    pose proof (float_calculate_weight_registered v m d Hin) as Hval.
    destruct (float_densities_finite m d Hin) as [mantissa [exponent ->]].
    split; [exact Hval | split; [| split]].
    + intros [e He]. rewrite Hval in He. discriminate He.
    + intros s ->. destruct s; reflexivity.
    + intros ->. reflexivity.
Qed.

Lemma calculate_weight_unchecked_volume_witness :
  (calculate_weight (-2) "18K Gold" = Ok (-2 * 0.0154)
   /\ ~ raises (calculate_weight (-2) "18K Gold"))
  /\ IEEE.calculate_weight (IEEE.b64 (-1) 0) "18K Gold"
     = Ok (SFopp (IEEE.literal 154 10000))
  /\ IEEE.calculate_weight (S754_infinity false) "18K Gold"
     = Ok (S754_infinity false)
  /\ IEEE.calculate_weight S754_nan "18K Gold" = Ok S754_nan.
Proof.
  assert (Hreal : In ("18K Gold"%string, 0.0154) MATERIAL_DENSITIES).
  { simpl. right. left. reflexivity. }
  assert (Hfloat : In ("18K Gold"%string, IEEE.literal 154 10000)
                      IEEE.MATERIAL_DENSITIES).
  { simpl. right. left. reflexivity. }
  pose proof (calculate_weight_unchecked_volume "18K Gold") as [Hr Hf].
  split; [| split; [| split]].
  - apply (Hr (-2) 0.0154); [lra | exact Hreal].
  - rewrite (proj1 (Hf (IEEE.b64 (-1) 0) _ Hfloat)). reflexivity.
  - rewrite (proj1 (Hf (S754_infinity false) _ Hfloat)). reflexivity.
  - rewrite (proj1 (Hf S754_nan _ Hfloat)). reflexivity.
Defined.

(** C4. An identifier that is not a key of the density table makes the
    density lookup, and with it [calculate_weight], raise [KeyError] for
    that identifier (the error the specification calls UnknownMaterial): no
    default density is used.  An identifier of the table gets the density
    that the table holds for it. *)
Theorem density_lookup_or_KeyError (m : string) :
  (~ In m (keys MATERIAL_DENSITIES) ->
   getitem MATERIAL_DENSITIES m = Raise (KeyError m)
   /\ forall v : R, calculate_weight v m = Raise (KeyError m))
  /\ (forall d : R, In (m, d) MATERIAL_DENSITIES ->
      getitem MATERIAL_DENSITIES m = Ok d).
Proof.
  split.
  - intros Hnot.
    pose proof (getitem_missing MATERIAL_DENSITIES m Hnot) as Hget.
    split; [exact Hget |].
    intros v. unfold calculate_weight, calculate_weight_in.
    rewrite Hget. reflexivity.
  - intros d Hin.
    apply getitem_present; [exact MATERIAL_DENSITIES_NoDup | exact Hin].
Qed.

Lemma not_a_real_material_absent :
  ~ In "NotARealMaterial"%string (keys MATERIAL_DENSITIES).
Proof.
  simpl. intros Hin.
  repeat (destruct Hin as [Hin | Hin]; [discriminate Hin |]).
  exact Hin.
Defined.

Lemma density_lookup_or_KeyError_witness :
  (getitem MATERIAL_DENSITIES "NotARealMaterial"
   = Raise (KeyError "NotARealMaterial")
   /\ forall v : R,
       calculate_weight v "NotARealMaterial"
       = Raise (KeyError "NotARealMaterial"))
  /\ getitem MATERIAL_DENSITIES "24K Gold" = Ok 0.0193.
Proof.
  split.
  - apply (proj1 (density_lookup_or_KeyError "NotARealMaterial")).
    exact not_a_real_material_absent.
  - apply (proj2 (density_lookup_or_KeyError "24K Gold") 0.0193).
    simpl. do 3 right. left. reflexivity.
Defined.

(** C10. The colour table and the description table have the keys of the
    density table (even in the same order), so for every registered material
    the colour lookup and the description lookup succeed. *)
Theorem material_tables_same_keys :
  keys MATERIAL_COLORS = keys MATERIAL_DENSITIES
  /\ keys MATERIAL_INFO = keys MATERIAL_DENSITIES
  /\ forall m : string, In m (keys MATERIAL_DENSITIES) ->
       exists (colour description : string),
         getitem MATERIAL_COLORS m = Ok colour
         /\ getitem MATERIAL_INFO m = Ok description.
Proof.
  split; [reflexivity | split; [reflexivity |]].
  intros m Hin. simpl in Hin.
  repeat (destruct Hin as [Hin | Hin];
          [ subst m; eexists; eexists; split; reflexivity | ]).
  contradiction.
Qed.

Lemma material_tables_same_keys_witness :
  exists (colour description : string),
    getitem MATERIAL_COLORS "Rose Gold (18K)" = Ok colour
    /\ getitem MATERIAL_INFO "Rose Gold (18K)" = Ok description.
Proof.
  apply (proj2 (proj2 material_tables_same_keys) "Rose Gold (18K)"%string).
  simpl. do 9 right. left. reflexivity.
Defined.

(** ** The comparison across materials *)

Section Comparison.

Variable densities : dict R.
Variable colors : dict string.
Variable info : dict string.
Variable volume : R.

Hypothesis densities_NoDup : NoDup (keys densities).
Hypothesis colors_cover :
  forall m, In m (keys densities) -> exists c, lookup colors m = Some c.
Hypothesis info_cover :
  forall m, In m (keys densities) -> exists i, lookup info m = Some i.

Lemma weights_of_items (l : list (string * R)) :
  incl l densities ->
  comprehension (calculate_weight_in densities volume) (keys l)
  = Ok (map (fun item => volume * snd item) l).
Proof.
  induction l as [| [m d] rest IH]; intros Hincl; simpl.
  - reflexivity.
  - unfold calculate_weight_in at 1.
    rewrite (getitem_present densities m d densities_NoDup)
      by (apply Hincl; left; reflexivity).
    simpl. rewrite IH.
    + reflexivity.
    + intros x Hx. apply Hincl. right. exact Hx.
Qed.

Lemma colours_of_items (l : list (string * R)) :
  incl l densities ->
  exists cs, comprehension (getitem colors) (keys l) = Ok cs
             /\ List.length cs = List.length l.
Proof.
  induction l as [| [m d] rest IH]; intros Hincl; simpl.
  - exists []. split; reflexivity.
  - destruct (colors_cover m) as [c Hc].
    { change m with (fst (m, d)). apply in_map. apply Hincl.
      left. reflexivity. }
    destruct IH as [cs [Hcs Hlen]].
    { intros x Hx. apply Hincl. right. exact Hx. }
    exists (c :: cs). unfold getitem at 1. rewrite Hc. simpl.
    rewrite Hcs. simpl. split; [reflexivity | congruence].
Qed.

Lemma rows_of_items (l : list (string * R)) :
  incl l densities ->
  exists rows,
    comprehension (weight_row_in densities info volume) l = Ok rows
    /\ map (fun r => (row_material r, row_weight_g r)) rows
       = map (fun item => (fst item, volume * snd item)) l.
Proof.
  induction l as [| [m d] rest IH]; intros Hincl; simpl.
  - exists []. split; reflexivity.
  - destruct (info_cover m) as [i Hi].
    { change m with (fst (m, d)). apply in_map. apply Hincl.
      left. reflexivity. }
    destruct IH as [rows [Hrows Hmap]].
    { intros x Hx. apply Hincl. right. exact Hx. }
    unfold calculate_weight_in.
    rewrite (getitem_present densities m d densities_NoDup)
      by (apply Hincl; left; reflexivity).
    simpl. unfold getitem at 1. rewrite Hi. simpl. rewrite Hrows. simpl.
    eexists. split; [reflexivity |]. simpl. rewrite Hmap. reflexivity.
Qed.

Lemma weight_data_in_spec :
  exists rows,
    weight_data_in densities info volume = Ok rows
    /\ map (fun r => (row_material r, row_weight_g r)) rows
       = map (fun item => (fst item, volume * snd item)) densities.
Proof.
  unfold weight_data_in, items. apply rows_of_items. apply incl_refl.
Qed.

Lemma create_comparison_chart_in_spec :
  exists bars,
    create_comparison_chart_in densities colors volume = Ok bars
    /\ bar_x bars = keys densities
    /\ bar_y bars = map (fun item => volume * snd item) densities.
Proof.
  unfold create_comparison_chart_in.
  rewrite (weights_of_items densities (incl_refl _)).
  destruct (colours_of_items densities (incl_refl _)) as [cs [Hcs _]].
  simpl. rewrite Hcs. simpl.
  eexists. split; [reflexivity |]. split; reflexivity.
Qed.

End Comparison.

Lemma MATERIAL_COLORS_cover (m : string) :
  In m (keys MATERIAL_DENSITIES) -> exists c, lookup MATERIAL_COLORS m = Some c.
Proof.
  simpl. intros Hin.
  repeat (destruct Hin as [Hin | Hin];
          [ subst m; eexists; reflexivity | ]).
  contradiction.
Qed.

Lemma MATERIAL_INFO_cover (m : string) :
  In m (keys MATERIAL_DENSITIES) -> exists i, lookup MATERIAL_INFO m = Some i.
Proof.
  simpl. intros Hin.
  repeat (destruct Hin as [Hin | Hin];
          [ subst m; eexists; reflexivity | ]).
  contradiction.
Qed.

(** C7. For every volume [v], the weight table of [main] and the bar chart
    of [create_comparison_chart] have exactly one entry per material of the
    registry, in the order of the registry, and the grams of each entry are
    [v] times the registry density of its material. *)
Theorem comparison_across_materials (v : R) :
  (exists rows,
     weight_data v = Ok rows
     /\ map (fun r => (row_material r, row_weight_g r)) rows
        = map (fun item => (fst item, v * snd item))
              (items MATERIAL_DENSITIES)
     /\ map row_material rows = keys MATERIAL_DENSITIES
     /\ NoDup (map row_material rows))
  /\ (exists bars,
        create_comparison_chart v = Ok bars
        /\ bar_x bars = keys MATERIAL_DENSITIES
        /\ bar_y bars = map (fun item => v * snd item)
                            (items MATERIAL_DENSITIES)).
Proof.
  split.
  - destruct (weight_data_in_spec MATERIAL_DENSITIES MATERIAL_INFO v
                MATERIAL_DENSITIES_NoDup MATERIAL_INFO_cover)
      as [rows [Hrows Hmap]].
    exists rows. split; [exact Hrows | split; [exact Hmap |]].
    assert (Hnames : map row_material rows = keys MATERIAL_DENSITIES).
    { transitivity
        (map fst (map (fun r => (row_material r, row_weight_g r)) rows)).
      - rewrite map_map. reflexivity.
      - rewrite Hmap. rewrite map_map. reflexivity. }
    split; [exact Hnames |].
    rewrite Hnames. exact MATERIAL_DENSITIES_NoDup.
  - exact (create_comparison_chart_in_spec MATERIAL_DENSITIES MATERIAL_COLORS
             v MATERIAL_DENSITIES_NoDup MATERIAL_COLORS_cover).
Qed.

Lemma comparison_across_materials_rows_witness :
  exists rows, weight_data 250 = Ok rows /\ List.length rows = 10%nat.
Proof.
  destruct (proj1 (comparison_across_materials 250))
    as [rows [Hrows [_ [Hnames _]]]].
  exists rows. split; [exact Hrows |].
  rewrite <- (length_map row_material), Hnames. reflexivity.
Defined.

(** ** Unit conversions *)


Lemma quick_calculator_in_spec (densities : dict R) (v : R) (m : string)
      (w : R) :
  calculate_weight_in densities v m = Ok w ->
  quick_calculator_in densities v m
  = Ok {| calc_weight := w;
          calc_troy := w / 31.1035;
          calc_dwt := w / 1.55517 |}.
Proof.
  intros Hw. unfold quick_calculator_in. rewrite Hw. reflexivity.
Qed.

Lemma chart_customdata (densities : dict R) (colors : dict string)
      (volume : R) (bars : ComparisonBars) :
  create_comparison_chart_in densities colors volume = Ok bars ->
  bar_customdata bars = map (fun w => w / 31.1035) (bar_y bars).
Proof.
  unfold create_comparison_chart_in.
  destruct (comprehension (calculate_weight_in densities volume)
                          (keys densities)) as [ws | e];
    simpl; [| discriminate].
  destruct (comprehension (getitem colors) (keys densities)) as [cs | e];
    simpl; [| discriminate].
  intros Hbars. inversion Hbars. reflexivity.
Qed.

Lemma converted_rows_of_items (densities : dict R) (info : dict string)
      (volume : R) :
  NoDup (keys densities) ->
  (forall m, In m (keys densities) -> exists i, lookup info m = Some i) ->
  forall l : list (string * R),
    incl l densities ->
    exists rows,
      comprehension (weight_row_in densities info volume) l = Ok rows
      /\ map (fun r => (row_material r, row_weight_g r,
                        row_troy_oz r, row_pennyweight r)) rows
         = map (fun item => (fst item, volume * snd item,
                             volume * snd item / 31.1035,
                             volume * snd item / 1.55517)) l.
Proof.
  intros Hnd Hinfo.
  induction l as [| [m d] rest IH]; intros Hincl; simpl.
  - exists []. split; reflexivity.
  - destruct (Hinfo m) as [i Hi].
    { change m with (fst (m, d)). apply in_map. apply Hincl.
      left. reflexivity. }
    destruct IH as [rows [Hrows Hmap]].
    { intros x Hx. apply Hincl. right. exact Hx. }
    unfold calculate_weight_in.
    rewrite (getitem_present densities m d Hnd)
      by (apply Hincl; left; reflexivity).
    simpl. unfold getitem at 1. rewrite Hi. simpl. rewrite Hrows. simpl.
    eexists. split; [reflexivity |]. simpl. rewrite Hmap. reflexivity.
Qed.

(** C9. Wherever the program converts a mass in grams, it divides by the
    literal 31.1035 for troy ounces and by the literal 1.55517 for
    pennyweight.  The quick calculator returns the grams with these two
    quotients; for every volume the weight table has, for each material of
    the registry in turn, the grams and these two quotients of the grams;
    and the hover data of the chart are the heights of the bars divided by
    31.1035.  In particular, with a density table that gives a material
    the density 1, the volume 31.1035 weighs 31.1035 grams, which is 1
    troy ounce. *)
Theorem unit_conversions :
  (forall (v : R) (m : string) (w : R),
      calculate_weight v m = Ok w ->
      quick_calculator v m
      = Ok {| calc_weight := w;
              calc_troy := w / 31.1035;
              calc_dwt := w / 1.55517 |})
  /\ (forall v : R,
         exists rows,
           weight_data v = Ok rows
           /\ map (fun r => (row_material r, row_weight_g r,
                             row_troy_oz r, row_pennyweight r)) rows
              = map (fun item => (fst item, v * snd item,
                                  v * snd item / 31.1035,
                                  v * snd item / 1.55517))
                    (items MATERIAL_DENSITIES))
  /\ (forall v : R,
         exists bars,
           create_comparison_chart v = Ok bars
           /\ bar_y bars
              = map (fun item => v * snd item) (items MATERIAL_DENSITIES)
           /\ bar_customdata bars
              = map (fun item => v * snd item / 31.1035)
                    (items MATERIAL_DENSITIES))
  /\ (forall (densities : dict R) (m : string),
         lookup densities m = Some 1 ->
         exists r,
           quick_calculator_in densities 31.1035 m = Ok r
           /\ calc_weight r = 31.1035
           /\ calc_troy r = 1).
Proof.
  split; [| split; [| split]].
  - intros v m w Hw. apply quick_calculator_in_spec. exact Hw.
  - intros v. unfold weight_data, weight_data_in.
    apply converted_rows_of_items.
    + exact MATERIAL_DENSITIES_NoDup.
    + exact MATERIAL_INFO_cover.
    + apply incl_refl.
  - intros v.
    destruct (create_comparison_chart_in_spec MATERIAL_DENSITIES
                MATERIAL_COLORS v MATERIAL_DENSITIES_NoDup
                MATERIAL_COLORS_cover) as [bars [Hbars [_ Hy]]].
    exists bars. split; [exact Hbars | split; [exact Hy |]].
    rewrite (chart_customdata MATERIAL_DENSITIES MATERIAL_COLORS v bars Hbars).
    rewrite Hy, map_map. reflexivity.
  - intros densities m Hm.
    eexists. split.
    + apply quick_calculator_in_spec.
      unfold calculate_weight_in, getitem. rewrite Hm. reflexivity.
    + simpl. split; lra.
Qed.

Lemma unit_conversions_witness :
  quick_calculator 1000 "Silver (925)"
  = Ok {| calc_weight := 1000 * 0.0104;
          calc_troy := 1000 * 0.0104 / 31.1035;
          calc_dwt := 1000 * 0.0104 / 1.55517 |}
  /\ (exists rows,
         weight_data 1000 = Ok rows
         /\ map (fun r => (row_material r, row_weight_g r,
                           row_troy_oz r, row_pennyweight r)) rows
            = map (fun item => (fst item, 1000 * snd item,
                                1000 * snd item / 31.1035,
                                1000 * snd item / 1.55517))
                  (items MATERIAL_DENSITIES))
  /\ (exists bars,
         create_comparison_chart 1000 = Ok bars
         /\ bar_y bars
            = map (fun item => 1000 * snd item) (items MATERIAL_DENSITIES)
         /\ bar_customdata bars
            = map (fun item => 1000 * snd item / 31.1035)
                  (items MATERIAL_DENSITIES))
  /\ exists r,
       quick_calculator_in [("Water"%string, 1)] 31.1035 "Water" = Ok r
       /\ calc_weight r = 31.1035
       /\ calc_troy r = 1.
Proof.
  split; [| split; [| split]].
  - apply (proj1 unit_conversions 1000 "Silver (925)"%string (1000 * 0.0104)).
    reflexivity.
  - apply (proj1 (proj2 unit_conversions) 1000).
  - apply (proj1 (proj2 (proj2 unit_conversions)) 1000).
  - apply (proj2 (proj2 (proj2 unit_conversions))
             [("Water"%string, 1)] "Water"%string).
    reflexivity.
Defined.

(** ** Translation of a closed mesh *)

Lemma total_permutation (f : edge -> R) (l l' : list edge) :
  Permutation l l' -> total (map f l) = total (map f l').
Proof.
  intros Hperm.
  induction Hperm as [| x l l' _ IH | x y l | l l' l'' _ IH1 _ IH2];
    unfold total in *; simpl.
  - reflexivity.
  - rewrite IH. reflexivity.
  - lra.
  - rewrite IH1. exact IH2.
Qed.

Lemma total_app (l l' : list R) : total (l ++ l') = total l + total l'.
Proof.
  unfold total. induction l as [| x l IH]; simpl.
  - lra.
  - rewrite IH. lra.
Qed.

Lemma edge_flux_reverse (t : vec3) (e : edge) :
  edge_flux t (reverse_edge e) = - edge_flux t e.
Proof.
  destruct e as [u v]. unfold edge_flux, reverse_edge, np_dot, np_cross.
  simpl. ring.
Qed.

Lemma total_reversed_edges (t : vec3) (es : list edge) :
  total (map (edge_flux t) (map reverse_edge es))
  = - total (map (edge_flux t) es).
Proof.
  unfold total. induction es as [| e es IH]; simpl.
  - lra.
  - rewrite IH, edge_flux_reverse. lra.
Qed.

(** The opposite edges of a closed mesh cancel. *)
Lemma closed_flux_zero (t : vec3) (stl_mesh : Mesh) :
  closed_consistent stl_mesh ->
  total (map (edge_flux t) (directed_edges (vectors stl_mesh))) = 0.
Proof.
  intros Hclosed.
  pose proof (total_permutation (edge_flux t) _ _ Hclosed) as Hperm.
  rewrite total_reversed_edges in Hperm.
  lra.
Qed.

Lemma triple_product_translate (t : vec3) (triangle : Triangle) :
  triple_product (translate_triangle t triangle)
  = triple_product triangle
    + total (map (edge_flux t) (triangle_edges triangle)).
Proof.
  destruct triangle as [[A B] C].
  unfold triple_product, translate_triangle, triangle_edges, total,
    edge_flux, np_dot, np_cross, vadd.
  simpl. ring.
Qed.

Lemma signed_sum_cons (triangle : Triangle) (rest : list Triangle) :
  signed_tetrahedron_sum (triangle :: rest)
  = triple_product triangle + signed_tetrahedron_sum rest.
Proof.
  destruct triangle as [[A B] C]. reflexivity.
Qed.

Lemma signed_sum_translate (t : vec3) (triangles : list Triangle) :
  signed_tetrahedron_sum (map (translate_triangle t) triangles)
  = signed_tetrahedron_sum triangles
    + total (map (edge_flux t) (directed_edges triangles)).
Proof.
  induction triangles as [| triangle rest IH].
  - unfold total. simpl. lra.
  - change (directed_edges (triangle :: rest))
      with (triangle_edges triangle ++ directed_edges rest).
    rewrite map_app, total_app.
    change (map (translate_triangle t) (triangle :: rest))
      with (translate_triangle t triangle
            :: map (translate_triangle t) rest).
    rewrite !signed_sum_cons, triple_product_translate, IH. lra.
Qed.

(** In exact arithmetic the volume of a closed mesh does not change when
    the mesh is moved. *)
Lemma volume_translation_invariant (t : vec3) (stl_mesh : Mesh) :
  closed_consistent stl_mesh ->
  calculate_stl_volume (translate t stl_mesh) = calculate_stl_volume stl_mesh.
Proof.
  intros Hclosed.
  rewrite !calculate_stl_volume_signed_sum.
  unfold translate. simpl vectors.
  rewrite signed_sum_translate, (closed_flux_zero t stl_mesh Hclosed).
  f_equal. f_equal. lra.
Qed.

(** ** Surface area *)






Lemma triple_product_reverse (triangle : Triangle) :
  triple_product (reverse_triangle triangle) = - triple_product triangle.
Proof.
  destruct triangle as [[A B] C].
  unfold triple_product, reverse_triangle, np_dot, np_cross. simpl. ring.
Qed.

Lemma signed_sum_reverse (triangles : list Triangle) :
  signed_tetrahedron_sum (map reverse_triangle triangles)
  = - signed_tetrahedron_sum triangles.
Proof.
  induction triangles as [| triangle rest IH].
  - simpl. lra.
  - change (map reverse_triangle (triangle :: rest))
      with (reverse_triangle triangle :: map reverse_triangle rest).
    rewrite !signed_sum_cons, triple_product_reverse, IH. lra.
Qed.

(** ** The unit cube *)

Lemma remove_first_sound (e : nat * nat) (l l' : list (nat * nat)) :
  remove_first e l = Some l' -> Permutation l (e :: l').
Proof.
  revert l'. induction l as [| f rest IH]; simpl; intros l' Hrem.
  - discriminate Hrem.
  - destruct (index_edge_eqb e f) eqn:Heq.
    + inversion Hrem; subst l'.
      unfold index_edge_eqb in Heq.
      apply andb_true_iff in Heq. destruct Heq as [H1 H2].
      apply Nat.eqb_eq in H1. apply Nat.eqb_eq in H2.
      destruct e as [e1 e2], f as [f1 f2]. simpl in H1, H2. subst.
      apply Permutation_refl.
    + destruct (remove_first e rest) as [rest' |] eqn:Hrest;
        [| discriminate Hrem].
      inversion Hrem; subst l'.
      apply perm_trans with (f :: e :: rest').
      * apply perm_skip. apply IH. reflexivity.
      * apply perm_swap.
Qed.

Lemma same_edges_sound (l1 l2 : list (nat * nat)) :
  same_edges l1 l2 = true -> Permutation l1 l2.
Proof.
  revert l2. induction l1 as [| e rest IH]; simpl; intros l2 Hsame.
  - destruct l2; [apply perm_nil | discriminate Hsame].
  - destruct (remove_first e l2) as [l2' |] eqn:Hrem; [| discriminate Hsame].
    apply perm_trans with (e :: l2').
    + apply perm_skip. apply IH. exact Hsame.
    + apply Permutation_sym. apply remove_first_sound. exact Hrem.
Qed.

Lemma directed_edges_realise (position : nat -> vec3)
      (faces : list (nat * nat * nat)) :
  directed_edges (map (realise position) faces)
  = map (realise_edge position) (flat_map face_edges faces).
Proof.
  unfold directed_edges.
  induction faces as [| [[i j] k] rest IH]; simpl.
  - reflexivity.
  - rewrite IH. reflexivity.
Qed.

(** A mesh built from an index structure whose directed edges are balanced
    is closed, wherever its vertices are. *)
Lemma closed_of_index_edges (position : nat -> vec3)
      (faces : list (nat * nat * nat)) :
  same_edges (flat_map face_edges faces)
             (map swap_index_edge (flat_map face_edges faces)) = true ->
  closed_consistent {| vectors := map (realise position) faces |}.
Proof.
  intros Hsame. unfold closed_consistent. simpl vectors.
  rewrite directed_edges_realise, map_map.
  rewrite <- (map_map swap_index_edge (realise_edge position)).
  apply Permutation_map. apply same_edges_sound. exact Hsame.
Qed.

Lemma unit_cube_closed : closed_consistent unit_cube.
Proof.
  apply closed_of_index_edges. reflexivity.
Qed.

Lemma unit_cube_signed_sum : signed_tetrahedron_sum (vectors unit_cube) = 6.
Proof.
  cbv [unit_cube vectors map realise cube_faces cube_corner
       signed_tetrahedron_sum np_dot np_cross vx vy vz].
  lra.
Qed.

Lemma unit_cube_volume : calculate_stl_volume unit_cube = 1.
Proof.
  rewrite calculate_stl_volume_signed_sum, unit_cube_signed_sum.
  rewrite Rabs_right by lra. lra.
Qed.

(** The signed sum of the moved cube, computed on its coordinates and not
    through the invariance. *)
Lemma moved_cube_signed_sum : signed_tetrahedron_sum (vectors moved_cube) = 6.
Proof.
  cbv [moved_cube translate translate_triangle vadd unit_cube vectors map
       realise cube_faces cube_corner signed_tetrahedron_sum np_dot np_cross
       vx vy vz].
  lra.
Qed.





(** Closedness cannot be dropped: the volume computed for a single triangle
    changes when the triangle is moved. *)
Lemma lone_triangle_volume_moves :
  calculate_stl_volume lone_triangle = 1 / 6
  /\ calculate_stl_volume (translate (V3 1 0 0) lone_triangle) = 2 / 6.
Proof.
  rewrite !calculate_stl_volume_signed_sum.
  cbv [lone_triangle translate translate_triangle vadd vectors map
       signed_tetrahedron_sum np_dot np_cross vx vy vz].
  split.
  - replace (1 * (1 * 1 - 0 * 0) + 0 * (0 * 0 - 0 * 1) + 0 * (0 * 0 - 1 * 0)
             + 0) with 1 by lra.
    rewrite Rabs_right by lra. reflexivity.
  - match goal with
    | |- Rabs ?e / 6 = _ => replace e with 2 by lra
    end.
    rewrite Rabs_right by lra. reflexivity.
Qed.

(** ** The volume in floating-point arithmetic *)








(** ** Reversing the winding *)





(** X20. The volume that the binary32 computation returns is never
    negative, for every mesh and whatever its coordinates are: it is NaN,
    or its sign is not set. *)
Theorem float_volume_not_negative (stl_mesh : IEEE.Mesh) :
  IEEE.not_negative (IEEE.calculate_stl_volume stl_mesh).
Proof.
  unfold IEEE.calculate_stl_volume, IEEE.div32.
  change (IEEE.b32 6 0) with (S754_finite false 12582912 (-21)).
  apply div_abs_not_negative.
Qed.

(** * Further properties of the geometry functions *)


(** ** The statistics of a mesh *)

Lemma get_mesh_statistics_inv (stl_mesh : Mesh) (stats : MeshStatistics) :
  get_mesh_statistics stl_mesh = Ok stats ->
  exists p rest,
    reshape_points (vectors stl_mesh) = p :: rest
    /\ stats
       = {| num_triangles := List.length (vectors stl_mesh);
            min_coords := fold_left vmin rest p;
            max_coords := fold_left vmax rest p;
            dimensions := vsub (fold_left vmax rest p) (fold_left vmin rest p);
            surface_area := np_sum (areas stl_mesh);
            center := np_mean_axis0 (p :: rest) |}.
Proof.
  unfold get_mesh_statistics.
  destruct (reshape_points (vectors stl_mesh)) as [| p rest] eqn:Hpoints;
    simpl; intros Hstats.
  - discriminate Hstats.
  - exists p, rest. split; [reflexivity |].
    inversion Hstats. reflexivity.
Qed.

Lemma reshape_points_nil (triangles : list Triangle) :
  reshape_points triangles = [] <-> triangles = [].
Proof.
  split.
  - destruct triangles as [| [[A B] C] rest]; [reflexivity |].
    simpl. discriminate.
  - intros ->. reflexivity.
Qed.

(** X6. The empty mesh: [calculate_stl_volume] returns 0 for it, while
    [get_mesh_statistics] and with it [create_3d_viewer] raise
    [ValueError].  For a mesh with at least one triangle both return, and
    the statistics count its triangles. *)
Theorem empty_mesh_behaviour (stl_mesh : Mesh) :
  (vectors stl_mesh = [] ->
   calculate_stl_volume stl_mesh = 0
   /\ get_mesh_statistics stl_mesh = Raise ValueError
   /\ forall volume filename selected_material,
       create_3d_viewer stl_mesh volume filename selected_material
       = Raise ValueError)
  /\ (vectors stl_mesh <> [] ->
      exists stats,
        get_mesh_statistics stl_mesh = Ok stats
        /\ num_triangles stats = List.length (vectors stl_mesh)
        /\ forall volume filename selected_material,
            exists trace,
              create_3d_viewer stl_mesh volume filename selected_material
              = Ok (trace, stats)).
Proof.
  split.
  - intros Hempty.
    assert (Hstats : get_mesh_statistics stl_mesh = Raise ValueError).
    { unfold get_mesh_statistics. rewrite Hempty. reflexivity. }
    split; [| split].
    + unfold calculate_stl_volume. rewrite Hempty. simpl.
      rewrite Rabs_R0. lra.
    + exact Hstats.
    + intros volume filename selected_material.
      unfold create_3d_viewer. rewrite Hstats. reflexivity.
  - intros Hnonempty.
    destruct (reshape_points (vectors stl_mesh)) as [| p rest] eqn:Hpoints.
    + exfalso. apply Hnonempty. apply reshape_points_nil. exact Hpoints.
    + assert (Hstats : exists stats,
                 get_mesh_statistics stl_mesh = Ok stats
                 /\ num_triangles stats = List.length (vectors stl_mesh)).
      { unfold get_mesh_statistics. rewrite Hpoints. simpl.
        eexists. split; reflexivity. }
      destruct Hstats as [stats [Hstats Hcount]].
      exists stats. split; [exact Hstats | split; [exact Hcount |]].
      intros volume filename selected_material.
      unfold create_3d_viewer. rewrite Hstats. simpl.
      eexists. reflexivity.
Qed.

Lemma empty_mesh_behaviour_witness :
  (calculate_stl_volume {| vectors := [] |} = 0
   /\ get_mesh_statistics {| vectors := [] |} = Raise ValueError
   /\ forall volume filename selected_material,
       create_3d_viewer {| vectors := [] |} volume filename selected_material
       = Raise ValueError)
  /\ exists stats,
       get_mesh_statistics lone_triangle = Ok stats
       /\ num_triangles stats = List.length (vectors lone_triangle)
       /\ forall volume filename selected_material,
           exists trace,
             create_3d_viewer lone_triangle volume filename selected_material
             = Ok (trace, stats).
Proof.
  split.
  - apply (proj1 (empty_mesh_behaviour {| vectors := [] |})). reflexivity.
  - apply (proj2 (empty_mesh_behaviour lone_triangle)).
    simpl. discriminate.
Defined.

Lemma vle_trans (a b c : vec3) : vle a b -> vle b c -> vle a c.
Proof.
  unfold vle. intros [H1 [H2 H3]] [H4 [H5 H6]].
  repeat split; eapply Rle_trans; eassumption.
Qed.

Lemma vmin_le (a b : vec3) : vle (vmin a b) a /\ vle (vmin a b) b.
Proof.
  unfold vle, vmin; simpl.
  repeat split;
    first [apply Rbasic_fun.Rmin_l | apply Rbasic_fun.Rmin_r].
Qed.

Lemma vmax_ge (a b : vec3) : vle a (vmax a b) /\ vle b (vmax a b).
Proof.
  unfold vle, vmax; simpl.
  repeat split;
    first [apply Rbasic_fun.Rmax_l | apply Rbasic_fun.Rmax_r].
Qed.

Lemma fold_vmin_lower (l : list vec3) (p : vec3) :
  forall q, In q (p :: l) -> vle (fold_left vmin l p) q.
Proof.
  revert p. induction l as [| a l IH]; intros p q Hin.
  - destruct Hin as [<- | []]. simpl. unfold vle. repeat split; apply Rle_refl.
  - simpl fold_left.
    destruct (vmin_le p a) as [Hp Ha].
    assert (Hacc : vle (fold_left vmin l (vmin p a)) (vmin p a)).
    { apply IH. left. reflexivity. }
    destruct Hin as [<- | [<- | Hin]].
    + eapply vle_trans; eassumption.
    + eapply vle_trans; eassumption.
    + apply IH. right. exact Hin.
Qed.

Lemma fold_vmax_upper (l : list vec3) (p : vec3) :
  forall q, In q (p :: l) -> vle q (fold_left vmax l p).
Proof.
  revert p. induction l as [| a l IH]; intros p q Hin.
  - destruct Hin as [<- | []]. simpl. unfold vle. repeat split; apply Rle_refl.
  - simpl fold_left.
    destruct (vmax_ge p a) as [Hp Ha].
    assert (Hacc : vle (vmax p a) (fold_left vmax l (vmax p a))).
    { apply IH. left. reflexivity. }
    destruct Hin as [<- | [<- | Hin]].
    + eapply vle_trans; eassumption.
    + eapply vle_trans; eassumption.
    + apply IH. right. exact Hin.
Qed.

Lemma fold_vmin_attained (l : list vec3) (p : vec3) :
  In (vx (fold_left vmin l p)) (map vx (p :: l))
  /\ In (vy (fold_left vmin l p)) (map vy (p :: l))
  /\ In (vz (fold_left vmin l p)) (map vz (p :: l)).
Proof.
  revert p. induction l as [| a l IH]; intros p.
  - simpl. repeat split; left; reflexivity.
  - simpl fold_left. destruct (IH (vmin p a)) as [Hx [Hy Hz]].
    repeat split.
    + destruct Hx as [Hx | Hx]; [| right; right; exact Hx].
      rewrite <- Hx. simpl vx at 1.
      apply Rmin_case; [left | right; left]; reflexivity.
    + destruct Hy as [Hy | Hy]; [| right; right; exact Hy].
      rewrite <- Hy. simpl vy at 1.
      apply Rmin_case; [left | right; left]; reflexivity.
    + destruct Hz as [Hz | Hz]; [| right; right; exact Hz].
      rewrite <- Hz. simpl vz at 1.
      apply Rmin_case; [left | right; left]; reflexivity.
Qed.

Lemma fold_vmax_attained (l : list vec3) (p : vec3) :
  In (vx (fold_left vmax l p)) (map vx (p :: l))
  /\ In (vy (fold_left vmax l p)) (map vy (p :: l))
  /\ In (vz (fold_left vmax l p)) (map vz (p :: l)).
Proof.
  revert p. induction l as [| a l IH]; intros p.
  - simpl. repeat split; left; reflexivity.
  - simpl fold_left. destruct (IH (vmax p a)) as [Hx [Hy Hz]].
    repeat split.
    + destruct Hx as [Hx | Hx]; [| right; right; exact Hx].
      rewrite <- Hx. simpl vx at 1.
      apply Rmax_case; [left | right; left]; reflexivity.
    + destruct Hy as [Hy | Hy]; [| right; right; exact Hy].
      rewrite <- Hy. simpl vy at 1.
      apply Rmax_case; [left | right; left]; reflexivity.
    + destruct Hz as [Hz | Hz]; [| right; right; exact Hz].
      rewrite <- Hz. simpl vz at 1.
      apply Rmax_case; [left | right; left]; reflexivity.
Qed.

(** X7. The bounding box of the statistics encloses the mesh and is tight:
    every vertex lies between [min_coords] and [max_coords], coordinate by
    coordinate, and each coordinate of the two corners is the coordinate of
    some vertex. *)
Theorem bounding_box_encloses (stl_mesh : Mesh) (stats : MeshStatistics) :
  get_mesh_statistics stl_mesh = Ok stats ->
  let points := reshape_points (vectors stl_mesh) in
  (forall p, In p points ->
     vle (min_coords stats) p /\ vle p (max_coords stats))
  /\ In (vx (min_coords stats)) (map vx points)
  /\ In (vy (min_coords stats)) (map vy points)
  /\ In (vz (min_coords stats)) (map vz points)
  /\ In (vx (max_coords stats)) (map vx points)
  /\ In (vy (max_coords stats)) (map vy points)
  /\ In (vz (max_coords stats)) (map vz points).
Proof.
  intros Hstats. cbv zeta.
  destruct (get_mesh_statistics_inv _ _ Hstats) as [p [rest [Hpoints ->]]].
  rewrite Hpoints. simpl min_coords. simpl max_coords.
  destruct (fold_vmin_attained rest p) as [Hx [Hy Hz]].
  destruct (fold_vmax_attained rest p) as [Hx' [Hy' Hz']].
  split; [| repeat split; assumption].
  intros q Hq. split.
  - apply fold_vmin_lower. exact Hq.
  - apply fold_vmax_upper. exact Hq.
Qed.

Lemma bounding_box_encloses_witness :
  exists stats,
    get_mesh_statistics lone_triangle = Ok stats
    /\ forall p, In p (reshape_points (vectors lone_triangle)) ->
         vle (min_coords stats) p /\ vle p (max_coords stats).
Proof.
  eexists. split; [reflexivity |].
  apply (proj1 (bounding_box_encloses lone_triangle _ eq_refl)).
Defined.









(** ** The statistics of a moved mesh *)










(** ** The mesh handed to the 3D viewer *)

Lemma arange_from_thirds (stop : nat) :
  forall (m start fuel : nat),
    (m <= fuel)%nat ->
    (stop <= start + 3 * m)%nat ->
    (m = 0%nat \/ (start + 3 * (m - 1) < stop)%nat) ->
    arange_from fuel start stop 3
    = map (fun t => (start + 3 * t)%nat) (seq 0 m).
Proof.
  induction m as [| m IH]; intros start fuel Hfuel Hstop Hlast.
  - simpl. destruct fuel as [| fuel]; [reflexivity |].
    simpl. destruct (Nat.ltb_spec start stop) as [Hlt | Hge]; [lia |].
    reflexivity.
  - destruct fuel as [| fuel]; [lia |].
    destruct Hlast as [Hzero | Hlast]; [discriminate Hzero |].
    simpl arange_from.
    destruct (Nat.ltb_spec start stop) as [Hlt | Hge]; [| lia].
    rewrite (IH (start + 3)%nat fuel) by lia.
    simpl seq. simpl map. f_equal.
    + f_equal. lia.
    + rewrite <- seq_shift, map_map. apply map_ext. intros t. lia.
Qed.

Lemma np_arange_thirds (offset n : nat) :
  (offset < 3)%nat ->
  np_arange offset (n * 3) 3 = map (fun t => (offset + 3 * t)%nat) (seq 0 n).
Proof.
  intros Hoffset. unfold np_arange.
  apply arange_from_thirds; lia.
Qed.

Lemma nth_error_map_seq (g : nat -> nat) (n t start : nat) :
  (t < n)%nat ->
  nth_error (map g (seq start n)) t = Some (g (start + t)%nat).
Proof.
  revert t start. induction n as [| n IH]; intros t start Ht; [lia |].
  destruct t as [| t]; simpl.
  - f_equal. f_equal. lia.
  - rewrite IH by lia. f_equal. f_equal. lia.
Qed.

Lemma reshape_points_nth (triangles : list Triangle) :
  forall (t : nat) (A B C : vec3),
    nth_error triangles t = Some (A, B, C) ->
    nth_error (reshape_points triangles) (0 + 3 * t) = Some A
    /\ nth_error (reshape_points triangles) (1 + 3 * t) = Some B
    /\ nth_error (reshape_points triangles) (2 + 3 * t) = Some C.
Proof.
  induction triangles as [| [[A0 B0] C0] rest IH]; intros t A B C Hnth.
  - destruct t; discriminate Hnth.
  - destruct t as [| t].
    + inversion Hnth; subst. repeat split; reflexivity.
    + simpl in Hnth. destruct (IH t A B C Hnth) as [HA [HB HC]].
      replace (0 + 3 * S t)%nat with (S (S (S (0 + 3 * t)))) by lia.
      replace (1 + 3 * S t)%nat with (S (S (S (1 + 3 * t)))) by lia.
      replace (2 + 3 * S t)%nat with (S (S (S (2 + 3 * t)))) by lia.
      change (reshape_points ((A0, B0, C0) :: rest))
        with (A0 :: B0 :: C0 :: reshape_points rest).
      cbn [nth_error]. repeat split; assumption.
Qed.

Lemma trace_vertex_columns (vertices : list vec3) (index : nat) (P : vec3)
      (i j k : list nat) (colour title : string) :
  nth_error vertices index = Some P ->
  trace_vertex {| mesh_x := map vx vertices;
                  mesh_y := map vy vertices;
                  mesh_z := map vz vertices;
                  mesh_i := i; mesh_j := j; mesh_k := k;
                  mesh_color := colour; mesh_title := title |} index
  = Some P.
Proof.
  intros Hnth. unfold trace_vertex. cbn [mesh_x mesh_y mesh_z].
  rewrite !nth_error_map, Hnth. simpl. destruct P. reflexivity.
Qed.

Lemma reshape_points_length (triangles : list Triangle) :
  List.length (reshape_points triangles) = (List.length triangles * 3)%nat.
Proof.
  induction triangles as [| [[A B] C] rest IH].
  - reflexivity.
  - change (reshape_points ((A, B, C) :: rest))
      with (A :: B :: C :: reshape_points rest).
    cbn [List.length]. rewrite IH. lia.
Qed.

(** X10. The viewer draws exactly the triangles of the mesh: the three
    index arrays have one entry per triangle, and for the triangle at
    position [t] the entries at [t] point, inside the vertex columns, at
    its three vertices in their order. *)
Theorem viewer_triangles (stl_mesh : Mesh) (volume : R) (filename : string)
        (selected_material : option string)
        (trace : Mesh3d) (stats : MeshStatistics) :
  create_3d_viewer stl_mesh volume filename selected_material
  = Ok (trace, stats) ->
  let n := List.length (vectors stl_mesh) in
  List.length (mesh_i trace) = n
  /\ List.length (mesh_j trace) = n
  /\ List.length (mesh_k trace) = n
  /\ List.length (mesh_x trace) = (n * 3)%nat
  /\ List.length (mesh_y trace) = (n * 3)%nat
  /\ List.length (mesh_z trace) = (n * 3)%nat
  /\ forall (t : nat) (A B C : vec3),
       nth_error (vectors stl_mesh) t = Some (A, B, C) ->
       exists a b c,
         nth_error (mesh_i trace) t = Some a
         /\ nth_error (mesh_j trace) t = Some b
         /\ nth_error (mesh_k trace) t = Some c
         /\ trace_vertex trace a = Some A
         /\ trace_vertex trace b = Some B
         /\ trace_vertex trace c = Some C.
Proof.
  unfold create_3d_viewer.
  destruct (get_mesh_statistics stl_mesh) as [stats' | e];
    cbn [bind]; [| discriminate].
  intros Hviewer. inversion Hviewer; subst trace stats'. clear Hviewer.
  cbv zeta. cbn [mesh_i mesh_j mesh_k mesh_x mesh_y mesh_z].
  rewrite !np_arange_thirds by lia.
  rewrite !length_map, !length_seq, reshape_points_length.
  repeat (split; [reflexivity |]).
  intros t A B C Hnth.
  assert (Ht : (t < List.length (vectors stl_mesh))%nat).
  { apply nth_error_Some. rewrite Hnth. discriminate. }
  destruct (reshape_points_nth _ t A B C Hnth) as [HA [HB HC]].
  exists (0 + 3 * t)%nat, (1 + 3 * t)%nat, (2 + 3 * t)%nat.
  rewrite !nth_error_map_seq by exact Ht.
  repeat split; try reflexivity;
    apply trace_vertex_columns; assumption.
Qed.

Lemma viewer_triangles_witness :
  exists trace stats,
    create_3d_viewer lone_triangle (1 / 6) "ring.stl" (Some "18K Gold"%string)
    = Ok (trace, stats)
    /\ List.length (mesh_i trace) = 1%nat.
Proof.
  eexists. eexists. split; [reflexivity |].
  apply (viewer_triangles lone_triangle (1 / 6) "ring.stl"
           (Some "18K Gold"%string) _ _ eq_refl).
Defined.

(** X11. The colour of the viewer never fails: a material of the colour
    table gets its colour, and no selection, the empty name and any other
    name get the gold default "#FFD700".  The only exception that
    [create_3d_viewer] can raise is the [ValueError] of a mesh without
    triangles, whatever material is selected. *)
Theorem viewer_color_total (stl_mesh : Mesh) (volume : R) (filename : string)
        (selected_material : option string) :
  (forall m c, selected_material = Some m -> In (m, c) MATERIAL_COLORS ->
     viewer_color selected_material = c)
  /\ (forall m, selected_material = Some m -> ~ In m (keys MATERIAL_COLORS) ->
        viewer_color selected_material = "#FFD700"%string)
  /\ (selected_material = None ->
      viewer_color selected_material = "#FFD700"%string)
  /\ (forall e,
        create_3d_viewer stl_mesh volume filename selected_material = Raise e ->
        e = ValueError /\ vectors stl_mesh = []).
Proof.
  split; [| split; [| split]].
  - intros m c -> Hin. simpl in Hin.
    repeat (destruct Hin as [Hin | Hin];
            [ inversion Hin; subst; reflexivity | ]).
    contradiction.
  - intros m -> Hnot. unfold viewer_color.
    destruct (String.eqb m EmptyString); [reflexivity |].
    unfold dict_get. rewrite lookup_not_in by exact Hnot. reflexivity.
  - intros ->. reflexivity.
  - intros e. unfold create_3d_viewer, get_mesh_statistics.
    destruct (vectors stl_mesh) as [| [[A B] C] rest].
    + simpl. intros He. inversion He. split; reflexivity.
    + simpl. discriminate.
Qed.

Lemma viewer_color_total_witness :
  viewer_color (Some "Rose Gold (18K)"%string) = "#B76E79"%string
  /\ viewer_color (Some "Brass"%string) = "#FFD700"%string
  /\ viewer_color None = "#FFD700"%string.
Proof.
  split; [| split].
  - apply (proj1 (viewer_color_total lone_triangle 0 "a.stl"
                    (Some "Rose Gold (18K)"%string))
                 "Rose Gold (18K)"%string "#B76E79"%string eq_refl).
    simpl. do 9 right. left. reflexivity.
  - apply (proj1 (proj2 (viewer_color_total lone_triangle 0 "a.stl"
                           (Some "Brass"%string)))
                 "Brass"%string eq_refl).
    simpl. intros Hin.
    repeat (destruct Hin as [Hin | Hin]; [discriminate Hin |]).
    exact Hin.
  - apply (proj1 (proj2 (proj2 (viewer_color_total lone_triangle 0 "a.stl"
                                  None)))).
    reflexivity.
Defined.

(** * Further properties of the weight functions *)

(** ** The material selectors *)

Lemma list_index_found (l : list string) (x : string) :
  In x l ->
  exists i, list_index l x = Ok i
            /\ nth_error l i = Some x
            /\ forall j, (j < i)%nat -> nth_error l j <> Some x.
Proof.
  induction l as [| y rest IH]; intros Hin; [contradiction |].
  simpl list_index. destruct (String.eqb_spec y x) as [Heq | Hne].
  - exists 0%nat. subst y. split; [reflexivity | split; [reflexivity |]].
    intros j Hj. lia.
  - destruct Hin as [Hhead | Htail]; [contradiction |].
    destruct (IH Htail) as [i [Hidx [Hnth Hfirst]]].
    exists (S i). rewrite Hidx. split; [reflexivity | split; [exact Hnth |]].
    intros j Hj. destruct j as [| j]; simpl.
    + intros Hy. inversion Hy. contradiction.
    + apply Hfirst. lia.
Qed.

Lemma list_index_missing (l : list string) (x : string) :
  ~ In x l -> list_index l x = Raise ValueError.
Proof.
  induction l as [| y rest IH]; intros Hnot; [reflexivity |].
  simpl. destruct (String.eqb_spec y x) as [Heq | Hne].
  - exfalso. apply Hnot. left. exact Heq.
  - rewrite IH; [reflexivity |]. intros Hin. apply Hnot. right. exact Hin.
Qed.

Lemma list_index_nth (l : list string) :
  NoDup l ->
  forall i x, nth_error l i = Some x -> list_index l x = Ok i.
Proof.
  induction 1 as [| y rest Hfresh _ IH]; intros i x Hnth.
  - destruct i; discriminate Hnth.
  - destruct i as [| i]; simpl in Hnth.
    + inversion Hnth; subst. simpl. rewrite String.eqb_refl. reflexivity.
    + simpl. destruct (String.eqb_spec y x) as [Heq | Hne].
      * exfalso. apply Hfresh. subst y. eapply nth_error_In. exact Hnth.
      * rewrite (IH i x Hnth). reflexivity.
Qed.

(** X12. The material selectors of [main].  Every option is a material of
    all three tables, so [calculate_weight] and the description lookup
    cannot fail for a selected option; the position that the calculator's
    selector starts at is the position of the selected option (taking the
    option at a position and asking for its index gives the position
    back); a name that is no option makes the index raise [ValueError];
    and the option at position 1, the initial selection, is "18K Gold". *)
Theorem material_selectors :
  (forall (i : nat) (m : string),
      nth_error material_options i = Some m ->
      calculator_index m = Ok i
      /\ (exists description, getitem MATERIAL_INFO m = Ok description)
      /\ forall v : R, exists d : R,
           In (m, d) MATERIAL_DENSITIES /\ calculate_weight v m = Ok (v * d))
  /\ (forall m : string,
         ~ In m material_options -> calculator_index m = Raise ValueError)
  /\ nth_error material_options 1 = Some "18K Gold"%string.
Proof.
  split; [| split].
  - intros i m Hnth. split; [| split].
    + apply list_index_nth; [exact MATERIAL_DENSITIES_NoDup | exact Hnth].
    + assert (Hin : In m (keys MATERIAL_DENSITIES)).
      { eapply nth_error_In. exact Hnth. }
      destruct (MATERIAL_INFO_cover m Hin) as [description Hd].
      exists description. unfold getitem. rewrite Hd. reflexivity.
    + intros v.
      assert (Hin : In m (keys MATERIAL_DENSITIES)).
      { eapply nth_error_In. exact Hnth. }
      unfold keys in Hin. apply in_map_iff in Hin.
      destruct Hin as [[m' d] [Hfst Hin]]. simpl in Hfst. subst m'.
      exists d. split; [exact Hin |].
      apply calculate_weight_registered. exact Hin.
  - intros m Hnot. apply list_index_missing. exact Hnot.
  - reflexivity.
Qed.

Lemma material_selectors_witness :
  calculator_index "Palladium" = Ok 7%nat
  /\ calculator_index "Brass" = Raise ValueError.
Proof.
  split.
  - apply (proj1 (proj1 material_selectors 7%nat "Palladium"%string eq_refl)).
  - apply (proj1 (proj2 material_selectors) "Brass"%string).
    simpl. intros Hin.
    repeat (destruct Hin as [Hin | Hin]; [discriminate Hin |]).
    exact Hin.
Defined.

(** ** Weights as a function of the volume *)





(** ** The rows of the weight table and the bars of the chart *)

Lemma calculate_weight_in_inv (densities : dict R) (v : R) (m : string)
      (w : R) :
  calculate_weight_in densities v m = Ok w ->
  exists d, In (m, d) densities /\ lookup densities m = Some d /\ w = v * d.
Proof.
  unfold calculate_weight_in, getitem.
  destruct (lookup densities m) as [d |] eqn:Hl; cbn [bind];
    [| discriminate].
  intros Hw. inversion Hw. exists d.
  split; [apply lookup_in_keys; exact Hl | split; reflexivity].
Qed.

Lemma getitem_inv {V : Type} (d : dict V) (key : string) (v : V) :
  getitem d key = Ok v -> In (key, v) d.
Proof.
  unfold getitem. destruct (lookup d key) as [v' |] eqn:Hl;
    [| discriminate].
  intros Hv. inversion Hv; subst. apply lookup_in_keys. exact Hl.
Qed.

Lemma rows_fields (densities : dict R) (info : dict string) (volume : R) :
  NoDup (keys densities) ->
  forall (l : list (string * R)) (rows : list WeightRow),
    incl l densities ->
    comprehension (weight_row_in densities info volume) l = Ok rows ->
    Forall (fun r => In (row_material r, row_density r) densities
                     /\ In (row_material r, row_info r) info
                     /\ row_weight_g r = volume * row_density r) rows.
Proof.
  intros Hnd. induction l as [| [m d] rest IH]; intros rows Hincl Hrows.
  - inversion Hrows. constructor.
  - simpl in Hrows.
    destruct (calculate_weight_in densities volume m) as [w | e] eqn:Hw;
      cbn [bind] in Hrows; [| discriminate Hrows].
    destruct (getitem info m) as [i | e] eqn:Hi; cbn [bind] in Hrows;
      [| discriminate Hrows].
    destruct (comprehension (weight_row_in densities info volume) rest)
      as [rows' | e] eqn:Hrest; cbn [bind] in Hrows; [| discriminate Hrows].
    inversion Hrows; subst rows. constructor.
    + cbn [row_material row_density row_info row_weight_g].
      assert (Hin : In (m, d) densities) by (apply Hincl; left; reflexivity).
      destruct (calculate_weight_in_inv _ _ _ _ Hw) as [d' [_ [Hl ->]]].
      rewrite (lookup_in densities m d Hnd Hin) in Hl. inversion Hl; subst d'.
      split; [exact Hin | split; [| reflexivity]].
      apply getitem_inv. exact Hi.
    + apply (IH rows'); [| reflexivity].
      intros x Hx. apply Hincl. right. exact Hx.
Qed.

(** X15. Every row of the weight table belongs to one material: its
    density is the one of the density table, its description the one of the
    description table, and its grams are the volume times that density. *)
Theorem weight_table_rows (v : R) (rows : list WeightRow) :
  weight_data v = Ok rows ->
  Forall (fun r => In (row_material r, row_density r) MATERIAL_DENSITIES
                   /\ In (row_material r, row_info r) MATERIAL_INFO
                   /\ row_weight_g r = v * row_density r) rows.
Proof.
  intros Hrows.
  apply (rows_fields MATERIAL_DENSITIES MATERIAL_INFO v
           MATERIAL_DENSITIES_NoDup MATERIAL_DENSITIES rows).
  - apply incl_refl.
  - exact Hrows.
Qed.

Lemma weight_table_rows_witness :
  exists rows,
    weight_data 120 = Ok rows
    /\ Forall (fun r => In (row_material r, row_density r) MATERIAL_DENSITIES
                        /\ In (row_material r, row_info r) MATERIAL_INFO
                        /\ row_weight_g r = 120 * row_density r) rows.
Proof.
  eexists. split; [reflexivity |].
  apply (weight_table_rows 120 _ eq_refl).
Defined.

Lemma comprehension_getitem {V : Type} (d : dict V) :
  forall (ks : list string) (vs : list V),
    comprehension (getitem d) ks = Ok vs ->
    List.length vs = List.length ks
    /\ forall k v, In (k, v) (combine ks vs) -> In (k, v) d.
Proof.
  induction ks as [| k ks IH]; intros vs Hvs.
  - inversion Hvs. split; [reflexivity |]. intros k v [].
  - simpl in Hvs.
    destruct (getitem d k) as [v0 | e] eqn:Hk; cbn [bind] in Hvs;
      [| discriminate Hvs].
    destruct (comprehension (getitem d) ks) as [vs' | e] eqn:Hrest;
      cbn [bind] in Hvs; [| discriminate Hvs].
    inversion Hvs; subst vs.
    destruct (IH vs' eq_refl) as [Hlen Hall].
    split; [simpl; congruence |].
    intros k' v' [Hhead | Htail].
    + inversion Hhead; subst. apply getitem_inv. exact Hk.
    + apply Hall. exact Htail.
Qed.

Lemma comprehension_length {A B : Type} (f : A -> result B) :
  forall (l : list A) (bs : list B),
    comprehension f l = Ok bs -> List.length bs = List.length l.
Proof.
  induction l as [| a l IH]; intros bs Hbs.
  - inversion Hbs. reflexivity.
  - simpl in Hbs. destruct (f a) as [b | e]; cbn [bind] in Hbs;
      [| discriminate Hbs].
    destruct (comprehension f l) as [bs' | e]; cbn [bind] in Hbs;
      [| discriminate Hbs].
    inversion Hbs. simpl. rewrite (IH bs' eq_refl). reflexivity.
Qed.

(** X16. In the comparison chart every bar is drawn in the colour of its
    material: the four arrays of the chart, categories, heights, colours
    and hover data, have one entry per registered material, and each
    category is paired with its entry of the colour table. *)
Theorem chart_bar_colors (v : R) (bars : ComparisonBars) :
  create_comparison_chart v = Ok bars ->
  let n := List.length MATERIAL_DENSITIES in
  List.length (bar_x bars) = n
  /\ List.length (bar_y bars) = n
  /\ List.length (bar_colors bars) = n
  /\ List.length (bar_customdata bars) = n
  /\ forall m c, In (m, c) (combine (bar_x bars) (bar_colors bars)) ->
       In (m, c) MATERIAL_COLORS.
Proof.
  unfold create_comparison_chart, create_comparison_chart_in.
  destruct (comprehension (calculate_weight_in MATERIAL_DENSITIES v)
                          (keys MATERIAL_DENSITIES)) as [ws | e] eqn:Hws;
    cbn [bind]; [| discriminate].
  destruct (comprehension (getitem MATERIAL_COLORS)
                          (keys MATERIAL_DENSITIES)) as [cs | e] eqn:Hcs;
    cbn [bind]; [| discriminate].
  intros Hbars. inversion Hbars; subst bars. clear Hbars.
  cbv zeta. cbn [bar_x bar_y bar_colors bar_customdata].
  pose proof (comprehension_length _ _ _ Hws) as Hlw.
  destruct (comprehension_getitem _ _ _ Hcs) as [Hlc Hall].
  unfold keys in *. rewrite length_map in *.
  repeat split; try assumption.
Qed.

Lemma chart_bar_colors_witness :
  exists bars,
    create_comparison_chart 75 = Ok bars
    /\ List.length (bar_colors bars) = 10%nat.
Proof.
  eexists. split; [reflexivity |].
  apply (chart_bar_colors 75 _ eq_refl).
Defined.



(** ** Statistics and the order of the data *)









